(** * app.py: a Flask view that runs a shell command

    The program is one Flask application with one view, [run_command],
    registered for [POST /].  The view reads the JSON body of the request,
    takes its ["cmd"] entry, gives it to [os.popen], reads the pipe to the
    end and answers with [{"output": result}, 200].

    The embedding follows the source line by line.  What the source leaves
    to its surroundings is a parameter of the model: the host (file system,
    processes, ...) is an abstract type, and the host's command shell is a
    function that, given a command line and a host state, says how the
    child process ends and what the host looks like afterwards.  The
    library calls the source makes ([request.get_json], [dict.get],
    [os.popen], [read], Flask's conversion of the view's return value and
    of uncaught exceptions, Flask's URL map and [Flask.run]) are modelled
    after the library code they run. *)

From stdpp Require Import base strings gmap list.
From Stdlib Require Import ZArith.
Local Open Scope Z_scope.

(** ** Python values

    The values a JSON body parses to, which are also the values the view
    handles: [None], booleans, integers, floats (kept by their text, the
    view never computes with one), strings, lists and dicts with string
    keys.  A dict is a finite map: a repeated key of the JSON text has
    already been resolved by the parser.

    A [str] is kept as the bytes [os.fsencode] gives for it: its UTF-8,
    with a lone surrogate U+DC80..U+DCFF standing for the one byte it
    escapes.  These are the bytes the shell gets for a command line, and
    the bytes a pipe opened in text mode must deliver for [read] to return
    the text.  A [str] with any other lone surrogate has no such bytes;
    [os.popen] raises [UnicodeEncodeError] on it, and it is not among the
    values of the model. *)

#[warnings="-register-all"]
Inductive pyval : Type :=
  | PNone
  | PBool (b : bool)
  | PInt (n : Z)
  | PFloat (repr : string)
  | PStr (s : string)
  | PList (l : list pyval)
  | PDict (d : gmap string pyval).

(** [isinstance(v, str)] *)
Definition is_str (v : pyval) : bool :=
  match v with PStr _ => true | _ => false end.

(** The line feed character, written [\n] in Python. *)
Definition LF : string := String (Ascii.ascii_of_nat 10) EmptyString.

(** The carriage return, written [\r] in Python. *)
Definition CR : string := String (Ascii.ascii_of_nat 13) EmptyString.

(** Whether a text holds the NUL character. *)
Fixpoint has_nul (s : string) : bool :=
  match s with
  | EmptyString => false
  | String a s' => bool_decide (a = Ascii.zero) || has_nul s'
  end.

(** ** Text mode

    [os.popen] opens the pipe with [text=True]: what [read] returns is the
    child's bytes decoded as UTF-8 by the strict decoder, then with every
    line ending made a line feed. *)

(** The strict UTF-8 decoder as an automaton over the bytes: between two
    characters, or [n] bytes short of the end of one, the next of them
    within [lo..hi].  The ranges are those of well-formed UTF-8: no
    overlong form, no surrogate, nothing above U+10FFFF. *)
Inductive utf8_state : Type :=
  | Between
  | Within (n : nat) (lo hi : N).

Definition utf8_step (st : utf8_state) (b : N) : option utf8_state :=
  match st with
  | Between =>
      if (b <=? 127)%N then Some Between
      else if (194 <=? b)%N && (b <=? 223)%N then Some (Within 1 128 191)
      else if (b =? 224)%N then Some (Within 2 160 191)
      else if (b =? 237)%N then Some (Within 2 128 159)
      else if (225 <=? b)%N && (b <=? 239)%N then Some (Within 2 128 191)
      else if (b =? 240)%N then Some (Within 3 144 191)
      else if (241 <=? b)%N && (b <=? 243)%N then Some (Within 3 128 191)
      else if (b =? 244)%N then Some (Within 3 128 143)
      else None
  | Within n lo hi =>
      if (lo <=? b)%N && (b <=? hi)%N
      then Some match n with
                | S (S n') => Within (S n') 128 191
                | _ => Between
                end
      else None
  end.

Fixpoint utf8_run (st : utf8_state) (s : string) : bool :=
  match s with
  | EmptyString => match st with Between => true | Within _ _ _ => false end
  | String a s' =>
      match utf8_step st (Ascii.N_of_ascii a) with
      | Some st' => utf8_run st' s'
      | None => false
      end
  end.

(** Whether the strict decoder takes the bytes [s] to their end. *)
Definition utf8_ok (s : string) : bool := utf8_run Between s.

(** Universal newlines, the default of a text stream that is read: [\r\n]
    and a [\r] alone both become [\n]. *)
Fixpoint universal_newlines (s : string) : string :=
  match s with
  | EmptyString => EmptyString
  | String a s' =>
      if bool_decide (a = Ascii.ascii_of_nat 13) then
        match s' with
        | String b s'' =>
            if bool_decide (b = Ascii.ascii_of_nat 10)
            then String b (universal_newlines s'')
            else String (Ascii.ascii_of_nat 10) (universal_newlines s')
        | EmptyString => LF
        end
      else String a (universal_newlines s')
  end.

(** [str.upper] on the ASCII letters, all an HTTP method is made of. *)
Definition upper_ascii (a : Ascii.ascii) : Ascii.ascii :=
  let n := Ascii.N_of_ascii a in
  if (97 <=? n)%N && (n <=? 122)%N then Ascii.ascii_of_N (n - 32) else a.

Fixpoint upper (s : string) : string :=
  match s with
  | EmptyString => EmptyString
  | String a s' => String (upper_ascii a) (upper s')
  end.

(** ** Exceptions

    [HTTPError] are the werkzeug exceptions [get_json] aborts with; they
    carry their own status code.  Every other exception is a Python error
    that nobody in the program catches. *)

Inductive HTTPError : Type :=
  | BadRequest
  | UnsupportedMediaType.

Definition code (e : HTTPError) : Z :=
  match e with
  | BadRequest => 400
  | UnsupportedMediaType => 415
  end.

Inductive exn : Type :=
  | TypeError
  | AttributeError
  | ValueError
  | OSError
  | UnicodeDecodeError
  | HTTPException (e : HTTPError).

(** ** Child processes *)

(** What a finished child process leaves behind. *)
Record CompletedProcess : Type := {
  stdout : string;
  stderr : string;
  returncode : Z
}.

(** How [subprocess.Popen(cmd, shell=True, ...)] goes once the command
    line is on its way to a shell: the child runs to its end, the call
    itself raises (no process left to fork), or the child never closes its
    output.  The [stdout] and [stderr] of a child are the bytes it
    wrote. *)
Inductive ShellRun : Type :=
  | Exited (p : CompletedProcess)
  | SpawnFailed (e : exn)
  | Hangs.

(** The object [os.popen] returns: a wrapper around the child's standard
    output, the only stream of the child that is a pipe. *)
Inductive popen_file : Type :=
  | Finishes (p : CompletedProcess)
  | Never.

(** ** HTTP *)

(** The request as the view sees it.  The view uses nothing of it but
    [request.get_json()], which either aborts with an HTTP error or returns
    the parsed body. *)
Record Request : Type := {
  get_json_result : HTTPError + pyval
}.

(** A request whose body parses to [v]. *)
Definition json_request (v : pyval) : Request :=
  {| get_json_result := inr v |}.

Inductive Body : Type :=
  | JsonBody (v : pyval)
  | TextBody (s : string)
  | ErrorPage.

Record Response : Type := {
  status : Z;
  body : Body
}.

(** A rule of the URL map: its text, the methods it takes, the endpoint it
    leads to, and whether Flask answers OPTIONS for it by itself. *)
Record Rule : Type := {
  rule : string;
  methods : list string;
  endpoint : string;
  provide_automatic_options : bool
}.

(** ** What a computation of the view comes to

    It returns a value, raises, or never comes back (the child it reads
    from never closes its output). *)

Inductive outcome (A : Type) : Type :=
  | Return (a : A)
  | Raise (e : exn)
  | Blocked.
Arguments Return {A} a.
Arguments Raise {A} e.
Arguments Blocked {A}.

Section Server.

(** The state of the machine the server runs on. *)
Variable Host : Type.

(** The host's default command shell, [/bin/sh -c cmd]: the way the child
    ends and the host it leaves. *)
Variable sh : string -> Host -> ShellRun * Host.

(** Everything a call can touch.  The program has no variable of its own
    that outlives a call ([app] is never written after the import), so
    the world is the host plus two logs that only record: the command
    lines handed to the spawn of a shell, and what the children wrote on
    the standard error they inherit from the server. *)
Record World : Type := {
  host : Host;
  popen_calls : list string;
  server_stderr : list string
}.

(** *** The monad of the view: the world as state, over [outcome] *)

Definition M (A : Type) : Type := World -> outcome A * World.

Definition ret {A} (a : A) : M A := fun w => (Return a, w).

Definition raise {A} (e : exn) : M A := fun w => (Raise e, w).

Definition block {A} : M A := fun w => (Blocked, w).

Definition bind {A B} (m : M A) (k : A -> M B) : M B :=
  fun w =>
    match m w with
    | (Return a, w') => k a w'
    | (Raise e, w') => (Raise e, w')
    | (Blocked, w') => (Blocked, w')
    end.

Notation "x <- m ;; k" := (bind m (fun x => k))
  (at level 100, m at next level, right associativity).

(** *** The library calls of the view *)

(** [request.get_json()] *)
Definition get_json (request : Request) : M pyval :=
  match get_json_result request with
  | inl e => raise (HTTPException e)
  | inr v => ret v
  end.

(** [data.get(key)]: a dict answers with the entry or [None]; no other
    JSON value has a [get] attribute. *)
Definition py_get (data : pyval) (key : string) : M pyval :=
  match data with
  | PDict d => ret (default PNone (d !! key))
  | _ => raise AttributeError
  end.

(** [os.popen(cmd)], mode ["r"]: the type test of [os.py] comes first;
    then [subprocess.Popen(cmd, shell=True, text=True, stdout=PIPE)],
    which refuses a command line with a NUL in it before there is any
    process ([ValueError], embedded null byte), and whose child inherits
    the server's standard error. *)
Definition os_popen (cmd : pyval) : M popen_file :=
  match cmd with
  | PStr s => fun w =>
      let calls := popen_calls w ++ [s] in
      if has_nul s then (Raise ValueError, w) else
      match sh s (host w) with
      | (Exited p, h) =>
          (Return (Finishes p),
           {| host := h; popen_calls := calls;
              server_stderr := server_stderr w ++ [stderr p] |})
      | (SpawnFailed e, h) =>
          (Raise e,
           {| host := h; popen_calls := calls;
              server_stderr := server_stderr w |})
      | (Hangs, h) =>
          (Return Never,
           {| host := h; popen_calls := calls;
              server_stderr := server_stderr w |})
      end
  | _ => raise TypeError
  end.

(** [f.read()]: everything the child writes on its standard output, once
    the child has closed it, as text: [UnicodeDecodeError] when the bytes
    are not UTF-8. *)
Definition read (f : popen_file) : M string :=
  match f with
  | Finishes p =>
      if utf8_ok (stdout p)
      then ret (universal_newlines (stdout p))
      else raise UnicodeDecodeError
  | Never => block
  end.

(** *** The view *)

Definition run_command (request : Request) : M (pyval * Z) :=
  data <- get_json request ;;
  cmd <- py_get data "cmd" ;;
  f <- os_popen cmd ;;
  result <- read f ;;
  ret (PDict {[ "output" := PStr result ]}, 200).

(** *** Flask around the view *)

(** [make_response] on a [(body, status)] pair: a dict or a list goes
    through [jsonify], a string is sent as text, anything else is not a
    response. *)
Definition make_response (rv : pyval * Z) : exn + Response :=
  match fst rv with
  | PDict _ | PList _ => inr {| status := snd rv; body := JsonBody (fst rv) |}
  | PStr s => inr {| status := snd rv; body := TextBody s |}
  | _ => inl TypeError
  end.

(** [handle_user_exception] and [handle_exception]: an HTTP error is its
    own response, any other exception is a 500. *)
Definition handle_exception (e : exn) : Response :=
  match e with
  | HTTPException h => {| status := code h; body := ErrorPage |}
  | _ => {| status := 500; body := ErrorPage |}
  end.

(** [full_dispatch_request] for a request routed to [run_command].  The
    answer is [None] when the view never returns. *)
Definition full_dispatch_request (request : Request)
    : World -> option Response * World :=
  fun w =>
    match run_command request w with
    | (Return rv, w') =>
        (Some match make_response rv with
              | inr r => r
              | inl e => handle_exception e
              end, w')
    | (Raise e, w') => (Some (handle_exception e), w')
    | (Blocked, w') => (None, w')
    end.

(** Two calls, one after the other. *)
Definition two_calls (r1 r2 : Request)
    : World -> option Response * option Response * World :=
  fun w =>
    let '(a1, w1) := full_dispatch_request r1 w in
    let '(a2, w2) := full_dispatch_request r2 w1 in
    (a1, a2, w2).

End Server.

Arguments host {Host} _.
Arguments popen_calls {Host} _.
Arguments server_stderr {Host} _.
Arguments Build_World {Host} _ _ _.
Arguments ret {Host A} a _.
Arguments raise {Host A} e _.
Arguments block {Host A} _.
Arguments bind {Host A B} m k _.
Arguments get_json {Host} request _.
Arguments py_get {Host} data key _.
Arguments os_popen {Host} sh cmd _.
Arguments read {Host} f _.
Arguments run_command {Host} sh request _.
Arguments full_dispatch_request {Host} sh request _.
Arguments two_calls {Host} sh r1 r2 _.

(** ** Routing

    The URL map is built by the two calls of the source that add to it:
    [Flask(__name__)], which registers Flask's rule for static files, and
    the [app.route] over [run_command]. *)

(** [werkzeug.routing.Rule]: a rule that takes GET takes HEAD. *)
Definition werkzeug_rule (rule : string) (methods : list string)
    (endpoint : string) (automatic : bool) : Rule :=
  {| rule := rule;
     methods :=
       if bool_decide ("GET" ∈ methods) && negb (bool_decide ("HEAD" ∈ methods))
       then methods ++ ["HEAD"]
       else methods;
     endpoint := endpoint;
     provide_automatic_options := automatic |}.

(** [Flask.add_url_rule]: the methods default to GET and are upper-cased;
    unless the caller lists OPTIONS, Flask adds it and answers it by
    itself. *)
Definition add_url_rule (rule endpoint : string)
    (methods : option (list string)) (map : list Rule) : list Rule :=
  let given := upper <$> default ["GET"] methods in
  let automatic := negb (bool_decide ("OPTIONS" ∈ given)) in
  map ++ [werkzeug_rule rule
            (if automatic then given ++ ["OPTIONS"] else given)
            endpoint automatic].

(** [app = Flask(__name__)]: the static folder has its default name, so
    the constructor registers the rule of the static files. *)
Definition Flask_init : list Rule :=
  add_url_rule "/static/<path:filename>" "static" None [].

(** [@app.route('/', methods=['POST'])] over [def run_command]. *)
Definition url_map : list Rule :=
  add_url_rule "/" "run_command" (Some ["POST"]) Flask_init.

(** The text of a rule up to its first converter, and whether it has
    one. *)
Fixpoint before_converter (rule : string) : string * bool :=
  match rule with
  | EmptyString => (EmptyString, false)
  | String a rule' =>
      if bool_decide (a = Ascii.ascii_of_nat 60) then (EmptyString, true)
      else (String a (fst (before_converter rule')),
            snd (before_converter rule'))
  end.

(** What is left of [s] after the prefix [p]. *)
Fixpoint strip_prefix (p s : string) : option string :=
  match p, s with
  | EmptyString, _ => Some s
  | String a p', String b s' =>
      if bool_decide (a = b) then strip_prefix p' s' else None
  | String _ _, EmptyString => None
  end.

(** Whether a path is one of the rule.  The one converter of this map is
    the [path] converter at the end of the static rule, which takes any
    text that is not empty and does not start with a slash. *)
Definition rule_matches (rule path : string) : bool :=
  match strip_prefix (fst (before_converter rule)) path with
  | None => false
  | Some rest =>
      if snd (before_converter rule)
      then match rest with
           | EmptyString => false
           | String a _ => negb (bool_decide (a = Ascii.ascii_of_nat 47))
           end
      else bool_decide (rest = EmptyString)
  end.

Definition fits (method path : string) (r : Rule) : bool :=
  rule_matches (rule r) path && bool_decide (upper method ∈ methods r).

(** Where Flask takes a request: to the view of an endpoint, to its own
    answer to OPTIONS, or nowhere, and then werkzeug answers by itself
    (not found, method not allowed, a redirect). *)
Inductive Routed : Type :=
  | ToView (endpoint : string)
  | AutomaticOptions
  | ByWerkzeug.

(** The URL map's lookup, then the first test of
    [Flask.dispatch_request]. *)
Definition match_request (method path : string) : Routed :=
  match List.find (fits method path) url_map with
  | Some r =>
      if provide_automatic_options r && bool_decide (upper method = "OPTIONS")
      then AutomaticOptions
      else ToView (endpoint r)
  | None => ByWerkzeug
  end.

(** ** Start-up

    [Flask.run(host, port)] first looks at the environment: under
    [FLASK_RUN_FROM_CLI=true] it returns at once and no server is started.
    Otherwise it settles the address from its arguments first, then from
    the host and port parts of the [SERVER_NAME] entry of the
    application's configuration, then from its defaults, and hands it to
    werkzeug's [run_simple].  Python's [if not host] takes [None] and the
    empty string alike. *)

Definition truthy (s : option string) : bool :=
  match s with
  | Some (String _ _) => true
  | _ => false
  end.

(** The address [Flask.run] gives to [run_simple], or [None] when it
    returns without starting a server.  [environ] is [os.environ]. *)
Definition app_run (environ : gmap string string)
    (host : option string) (port : option Z)
    (sn_host : option string) (sn_port : option Z) : option (string * Z) :=
  if bool_decide (environ !! "FLASK_RUN_FROM_CLI" = Some "true") then None
  else
    Some (if truthy host then default "" host
          else if truthy sn_host then default "" sn_host
          else "127.0.0.1",
          match port with
          | Some p => p
          | None => default 5000 sn_port
          end).

(** The last two lines of the module: [app.run] is called only when the
    file is run as a script.  [name] is [__name__]. *)
Definition main (name : string) (environ : gmap string string)
    (sn_host : option string) (sn_port : option Z) : option (string * Z) :=
  if bool_decide (name = "__main__")
  then app_run environ (Some "0.0.0.0") (Some 3000) sn_host sn_port
  else None.

(** ** A small host to run the model on

    The examples below need a shell that computes.  This one knows a
    handful of command lines and answers them as [/bin/sh] does; its host
    state is the list of file names in the server's working directory. *)

Module Demo.

Definition Host : Type := list string.

Definition finished (out err : string) (rc : Z) : ShellRun :=
  Exited {| stdout := out; stderr := err; returncode := rc |}.

Definition listing (files : list string) : string :=
  foldr (fun f acc => f +:+ LF +:+ acc) "" files.

Definition sh (cmd : string) (files : Host) : ShellRun * Host :=
  if bool_decide (cmd = "") then
    (finished "" "" 0, files)
  else if bool_decide (cmd = "echo hello") then
    (finished ("hello" +:+ LF) "" 0, files)
  else if bool_decide (cmd = "exit 1") then
    (finished "" "" 1, files)
  else if bool_decide (cmd = "echo out; echo err >&2") then
    (finished ("out" +:+ LF) ("err" +:+ LF) 0, files)
  else if bool_decide (cmd = "ls /nonexistent") then
    (finished ""
       ("ls: cannot access '/nonexistent': No such file or directory" +:+ LF)
       2, files)
  else if bool_decide (cmd = "touch flag") then
    (finished "" "" 0,
     if bool_decide ("flag" ∈ files) then files else files ++ ["flag"])
  else if bool_decide (cmd = "ls") then
    (finished (listing files) "" 0, files)
  else if bool_decide (cmd = "sleep infinity") then
    (Hangs, files)
  else
    (finished "" ("/bin/sh: 1: " +:+ cmd +:+ ": not found" +:+ LF) 127, files).

(** The server has just started, in the directory that holds its source. *)
Definition boot : World Host :=
  {| host := ["app.py"]; popen_calls := []; server_stderr := [] |}.

(** A POST whose body is the JSON object with the one key ["cmd"]. *)
Definition post (s : string) : Request :=
  json_request (PDict {[ "cmd" := PStr s ]}).

End Demo.

(** ** Calls in a row

    Flask calls the view once for each request it routes to it.  [calls]
    is a run of such calls, each on the world the one before it left; it
    is [two_calls] for any number of requests. *)

Section Calls.

Variable Host : Type.
Variable sh : string -> Host -> ShellRun * Host.

Fixpoint calls (rs : list Request) (w : World Host)
    : list (option Response) * World Host :=
  match rs with
  | [] => ([], w)
  | r :: rs' =>
      let '(a, w1) := full_dispatch_request sh r w in
      let '(answers, w2) := calls rs' w1 in
      (a :: answers, w2)
  end.

(** The shell [sh] with [f] applied to the way each child ends. *)
Definition map_run (f : ShellRun -> ShellRun)
    : string -> Host -> ShellRun * Host :=
  fun c h => (f (fst (sh c h)), snd (sh c h)).

(** A host with no process left: no shell can be forked on it. *)
Definition no_fork : string -> Host -> ShellRun * Host :=
  fun c h => (SpawnFailed OSError, h).

(** A shell whose children all write the bytes [out] and exit. *)
Definition writes (out : string) : string -> Host -> ShellRun * Host :=
  fun c h => (Exited {| stdout := out; stderr := ""; returncode := 0 |}, h).

End Calls.

Arguments calls {Host} sh rs w.
Arguments map_run {Host} sh f _ _.
Arguments no_fork {Host} _ _.
Arguments writes {Host} out _ _.

(** The command line a request asks for: the string under ["cmd"] of a
    body that parsed to a dict, when it is one that can be spawned (no
    NUL in it).  Every other request asks for none. *)
Definition cmd_of (r : Request) : option string :=
  match get_json_result r with
  | inr (PDict d) =>
      match d !! "cmd" with
      | Some (PStr s) => if has_nul s then None else Some s
      | _ => None
      end
  | _ => None
  end.

(** A finished child with another exit status, or another text on its
    standard error. *)
Definition with_returncode (rc : Z) (run : ShellRun) : ShellRun :=
  match run with
  | Exited p =>
      Exited {| stdout := stdout p; stderr := stderr p; returncode := rc |}
  | _ => run
  end.

Definition with_stderr (err : string) (run : ShellRun) : ShellRun :=
  match run with
  | Exited p =>
      Exited {| stdout := stdout p; stderr := err;
                returncode := returncode p |}
  | _ => run
  end.

(** * Properties *)

(** The answer of the server when the view returned [text]. *)
Definition ok (text : string) : Response :=
  {| status := 200; body := JsonBody (PDict {[ "output" := PStr text ]}) |}.

(** The answer of the server to an exception nobody caught. *)
Definition internal_server_error : Response :=
  {| status := 500; body := ErrorPage |}.

(** Opens a call of the view down to its library calls. *)
Ltac run_view :=
  unfold full_dispatch_request, run_command, bind, get_json, py_get, ret;
  simpl.

Section Properties.

Variable Host : Type.
Variable sh : string -> Host -> ShellRun * Host.

(** The world after a child that ran [s] to its end. *)
Definition after (w : World Host) (s : string) (p : CompletedProcess)
    (h : Host) : World Host :=
  {| host := h;
     popen_calls := popen_calls w ++ [s];
     server_stderr := server_stderr w ++ [stderr p] |}.

(** A string in ["cmd"] whose child exits: the view answers with the
    child's standard output as text, or fails to decode it. *)
Lemma dispatch_exited (d : gmap string pyval) (s : string) (w : World Host)
    (p : CompletedProcess) (h : Host) :
  d !! "cmd" = Some (PStr s) ->
  has_nul s = false ->
  sh s (host w) = (Exited p, h) ->
  full_dispatch_request sh (json_request (PDict d)) w
  = (Some (if utf8_ok (stdout p)
           then ok (universal_newlines (stdout p))
           else internal_server_error),
     after w s p h).
Proof.
  intros Hd Hnul Hsh.
  run_view.
  rewrite Hd; simpl.
  rewrite Hnul, Hsh; simpl.
  unfold read. destruct (utf8_ok (stdout p)); reflexivity.
Qed.

(** The line [hello] is UTF-8 and has no line ending to change: it is
    read as it was written. *)
Lemma read_hello : utf8_ok ("hello" +:+ LF) = true
  /\ universal_newlines ("hello" +:+ LF) = "hello" +:+ LF.
Proof. split; reflexivity. Qed.

(** Anything but a string in ["cmd"], or no ["cmd"] at all: [os.popen]
    raises before it spawns anything. *)
Lemma dispatch_not_str (d : gmap string pyval) (w : World Host) :
  is_str (default PNone (d !! "cmd")) = false ->
  run_command sh (json_request (PDict d)) w = (Raise TypeError, w)
  /\ full_dispatch_request sh (json_request (PDict d)) w
     = (Some internal_server_error, w).
Proof.
  intros Hv.
  run_view.
  destruct (default PNone (d !! "cmd")); try discriminate Hv; split; reflexivity.
Qed.

(** The answer to a call, and the host it leaves, are settled by the host
    the call starts on: the logs of the world are written, never read. *)
Lemma dispatch_reads_host_only (r : Request) (w1 w2 : World Host) :
  host w1 = host w2 ->
  fst (full_dispatch_request sh r w1) = fst (full_dispatch_request sh r w2)
  /\ host (snd (full_dispatch_request sh r w1))
     = host (snd (full_dispatch_request sh r w2)).
Proof.
  intros Hh.
  run_view.
  destruct (get_json_result r) as [e | v]; simpl; [auto |].
  destruct v as [ | | | | | | d]; simpl; auto.
  destruct (default PNone (d !! "cmd")) as [ | | | | s | | ]; simpl; auto.
  destruct (has_nul s); simpl; [auto |].
  rewrite Hh.
  destruct (sh s (host w2)) as [[p | e | ] h]; simpl; auto.
  unfold read. destruct (utf8_ok (stdout p)); simpl; auto.
Qed.

(** Two answers of the form [ok _] are equal only for equal texts. *)
Lemma ok_inj (a b : string) : ok a = ok b -> a = b.
Proof.
  intros H.
  apply (f_equal (fun r => match body r with
                           | JsonBody (PDict m) => m !! "output"
                           | _ => None
                           end)) in H.
  unfold ok in H; cbn [body] in H.
  rewrite !lookup_singleton_eq in H.
  congruence.
Qed.

(** ** The claims *)


(** C2, as amended: when the JSON object of the body has no ["cmd"] key,
    the access [data.get("cmd")] does not raise and returns [None]; [None]
    never reaches the shell, because [os.popen] raises [TypeError] on it
    before it spawns anything; the request ends in a 500 response and the
    world is as it was. *)
Theorem C2_missing_cmd_is_500 (d : gmap string pyval) (w : World Host) :
  d !! "cmd" = None ->
  py_get (PDict d) "cmd" w = (Return PNone, w)
  /\ run_command sh (json_request (PDict d)) w = (Raise TypeError, w)
  /\ full_dispatch_request sh (json_request (PDict d)) w
     = (Some {| status := 500; body := ErrorPage |}, w).
Proof.
  intros Hd.
  split.
  - unfold py_get, ret. rewrite Hd. reflexivity.
  - apply dispatch_not_str. rewrite Hd. reflexivity.
Qed.


(** C4: when the shell answers [echo hello] with the line [hello],
    POSTing the JSON body [{"cmd": "echo hello"}] returns the JSON response
    [{"output": "hello\n"}] with HTTP status 200. *)
Theorem C4_echo_hello (w : World Host) (p : CompletedProcess) (h : Host) :
  sh "echo hello" (host w) = (Exited p, h) ->
  stdout p = "hello" +:+ LF ->
  fst (full_dispatch_request sh
         (json_request (PDict {[ "cmd" := PStr "echo hello" ]})) w)
  = Some {| status := 200;
            body := JsonBody (PDict {[ "output" := PStr ("hello" +:+ LF) ]}) |}.
Proof.
  intros Hsh Hout.
  rewrite (dispatch_exited _ "echo hello" w p h
             (lookup_singleton_eq _ _) eq_refl Hsh).
  simpl. rewrite Hout.
  destruct read_hello as [-> ->]. reflexivity.
Qed.


(** C6, as amended: the view keeps no state of its own between calls.
    The answer to a call is a function of its body and of the host the call
    starts on, and of nothing else in the world; so call N-1 can reach the
    answer to call N only through what its command did to the host, which
    all calls share.  When call N-1 leaves the host as it found it, the
    answer to call N is the one it gets without call N-1. *)
Theorem C6_calls_meet_only_in_host (r1 r2 : Request) (w : World Host) :
  (forall w' : World Host,
     host w' = host w ->
     fst (full_dispatch_request sh r2 w') = fst (full_dispatch_request sh r2 w))
  /\ (host (snd (full_dispatch_request sh r1 w)) = host w ->
      snd (fst (two_calls sh r1 r2 w)) = fst (full_dispatch_request sh r2 w)).
Proof.
  split.
  - intros w' Hh. apply dispatch_reads_host_only, Hh.
  - intros Hh. unfold two_calls.
    destruct (full_dispatch_request sh r1 w) as [a1 w1] eqn:E1.
    destruct (full_dispatch_request sh r2 w1) as [a2 w2] eqn:E2.
    simpl in *.
    change a2 with (fst (a2, w2)). rewrite <- E2.
    apply dispatch_reads_host_only, Hh.
Qed.

(** C7, as amended: the program registers one URL rule of its own, for
    the path [/] and the method POST, next to the rule Flask registers for
    static files; a request reaches the view [run_command] exactly when it
    is a POST to [/], and reaches no other view than that of the static
    files; Flask answers OPTIONS on both rules by itself.  Every answer of
    [run_command] with status 200 is a JSON object with the single key
    [output], whose value is the string the child of this call wrote on
    its standard output, read as text. *)
Theorem C7_one_route_one_shape :
  (forall method path : string,
     match_request method path = ToView "run_command"
     <-> upper method = "POST" /\ path = "/")
  /\ (forall method path endpoint : string,
        match_request method path = ToView endpoint ->
        endpoint = "run_command" \/ endpoint = "static")
  /\ (forall path : string,
        match_request "OPTIONS" path = AutomaticOptions
        <-> path = "/" \/ rule_matches "/static/<path:filename>" path = true)
  /\ (forall (r : Request) (w w' : World Host) (resp : Response),
        full_dispatch_request sh r w = (Some resp, w') ->
        status resp = 200 ->
        exists (s : string) (p : CompletedProcess),
          sh s (host w) = (Exited p, host w')
          /\ utf8_ok (stdout p) = true
          /\ popen_calls w' = popen_calls w ++ [s]
          /\ body resp
             = JsonBody
                 (PDict {[ "output" := PStr (universal_newlines (stdout p)) ]})).
Proof.
  assert (Hroot : forall path : string,
            rule_matches "/" path = true <-> path = "/").
  { intros path. unfold rule_matches; simpl.
    destruct path as [ | a path]; simpl; [split; discriminate |].
    case_bool_decide as Ha; simpl; [| split; [discriminate | congruence]].
    rewrite bool_decide_eq_true. split; congruence. }
  assert (Hstatic_root : rule_matches "/static/<path:filename>" "/" = false)
    by reflexivity.
  assert (Hmatch : forall method path : string,
            match_request method path
            = if rule_matches "/static/<path:filename>" path
                 && bool_decide (upper method ∈ ["GET"; "OPTIONS"; "HEAD"])
              then if bool_decide (upper method = "OPTIONS")
                   then AutomaticOptions else ToView "static"
              else if rule_matches "/" path
                      && bool_decide (upper method ∈ ["POST"; "OPTIONS"])
                   then if bool_decide (upper method = "OPTIONS")
                        then AutomaticOptions else ToView "run_command"
                   else ByWerkzeug).
  { assert (Hmap : url_map
                   = [ {| rule := "/static/<path:filename>";
                          methods := ["GET"; "OPTIONS"; "HEAD"];
                          endpoint := "static";
                          provide_automatic_options := true |};
                       {| rule := "/";
                          methods := ["POST"; "OPTIONS"];
                          endpoint := "run_command";
                          provide_automatic_options := true |} ])
      by reflexivity.
    intros method path. unfold match_request. rewrite Hmap.
    unfold fits; cbn [List.find rule methods endpoint
                        provide_automatic_options andb].
    destruct (rule_matches "/static/<path:filename>" path
              && bool_decide (upper method ∈ ["GET"; "OPTIONS"; "HEAD"]));
      [reflexivity |].
    destruct (rule_matches "/" path
              && bool_decide (upper method ∈ ["POST"; "OPTIONS"]));
      reflexivity. }
  assert (Hexcl : forall path : string,
            rule_matches "/static/<path:filename>" path = true ->
            rule_matches "/" path = false).
  { intros path Hs. destruct (rule_matches "/" path) eqn:Hr; [| reflexivity].
    apply Hroot in Hr. congruence. }
  split; [| split; [| split]].
  - intros method path. rewrite Hmatch.
    destruct (rule_matches "/static/<path:filename>" path) eqn:Hs.
    + assert (Hp : path <> "/") by (intros ->; congruence).
      rewrite (Hexcl path Hs). cbn [andb].
      repeat case_bool_decide; (split; [discriminate | tauto]).
    + cbn [andb]. destruct (rule_matches "/" path) eqn:Hr; cbn [andb].
      * apply Hroot in Hr. subst path.
        repeat case_bool_decide;
          rewrite ?elem_of_cons, ?elem_of_nil in *;
          (split; [discriminate || intuition congruence | ]);
          intuition congruence.
      * assert (Hp : path <> "/").
        { intros Hp. apply Hroot in Hp. congruence. }
        split; [discriminate | tauto].
  - intros method path endpoint. rewrite Hmatch.
    repeat (case_bool_decide || case_match);
      (discriminate || (intros [= <-]; auto)).
  - intros path. rewrite Hmatch.
    destruct (rule_matches "/static/<path:filename>" path) eqn:Hs.
    + split; auto.
    + cbn [andb]. destruct (rule_matches "/" path) eqn:Hr.
      * apply Hroot in Hr. split; auto.
      * split; [discriminate |].
        intros [Hp | Hp]; [apply Hroot in Hp |]; congruence.
  - intros r w w' resp.
    run_view.
    destruct (get_json_result r) as [[ | ] | v]; simpl;
      try (intros [= <- <-]; simpl; discriminate).
    destruct v as [ | | | | | | d]; simpl;
      try (intros [= <- <-]; simpl; discriminate).
    destruct (default PNone (d !! "cmd")) as [ | | | | s | | ]; simpl;
      try (intros [= <- <-]; simpl; discriminate).
    destruct (has_nul s); simpl;
      try (intros [= <- <-]; simpl; discriminate).
    destruct (sh s (host w)) as [[p | e | ] h] eqn:Hsh; simpl.
    + unfold read. destruct (utf8_ok (stdout p)) eqn:Hu; simpl.
      * intros [= <- <-] _. exists s, p. simpl. auto.
      * intros [= <- <-]; simpl; discriminate.
    + destruct e as [ | | | | | [ | ]]; intros [= <- <-]; simpl; discriminate.
    + discriminate.
Qed.

(** C8, as amended: run as a script, the program calls [app.run] for all
    interfaces ([0.0.0.0]) and port 3000, and [Flask.run] gives that
    address to werkzeug's [run_simple] unless the environment holds
    [FLASK_RUN_FROM_CLI=true], in which case it returns and starts no
    server at all.  The module itself reads no environment variable and no
    file, and the [SERVER_NAME] of the configuration cannot change the
    address, since the arguments of the call come first. *)
Theorem C8_listens_on_all_interfaces_port_3000
    (environ : gmap string string)
    (sn_host : option string) (sn_port : option Z) :
  main "__main__" environ sn_host sn_port
  = if bool_decide (environ !! "FLASK_RUN_FROM_CLI" = Some "true")
    then None
    else Some ("0.0.0.0", 3000).
Proof.
  unfold main, app_run.
  rewrite bool_decide_eq_true_2 by reflexivity.
  case_bool_decide; reflexivity.
Qed.

(** C9: if the JSON object of the body has a ["cmd"] entry that is not a
    string (a number, a list, [null], ...), the view passes it to
    [os.popen], which raises [TypeError]; nobody catches it, the request
    ends in a 500 response, and no command is run: the world, with its log
    of command lines and its host, is as it was. *)
Theorem C9_non_string_cmd_is_500 (d : gmap string pyval) (v : pyval)
    (w : World Host) :
  d !! "cmd" = Some v ->
  is_str v = false ->
  run_command sh (json_request (PDict d)) w = (Raise TypeError, w)
  /\ full_dispatch_request sh (json_request (PDict d)) w
     = (Some {| status := 500; body := ErrorPage |}, w).
Proof.
  intros Hd Hv.
  apply dispatch_not_str. rewrite Hd. exact Hv.
Qed.

(** C10: if ["cmd"] is the empty string the view still succeeds: the shell
    is called with the empty command line and, when it writes nothing on
    its standard output for it, the response is HTTP 200 with [output] the
    empty string. *)
Theorem C10_empty_cmd_is_200 (d : gmap string pyval) (w : World Host)
    (p : CompletedProcess) (h : Host) :
  d !! "cmd" = Some (PStr "") ->
  sh "" (host w) = (Exited p, h) ->
  stdout p = "" ->
  fst (full_dispatch_request sh (json_request (PDict d)) w)
  = Some {| status := 200;
            body := JsonBody (PDict {[ "output" := PStr "" ]}) |}
  /\ popen_calls (snd (full_dispatch_request sh (json_request (PDict d)) w))
     = popen_calls w ++ [""].
Proof.
  intros Hd Hsh Hout.
  rewrite (dispatch_exited d "" w p h Hd eq_refl Hsh).
  simpl. rewrite Hout. split; reflexivity.
Qed.

End Properties.

(** * The claims on the demo host *)



(** C2 at work: the empty JSON object. *)
Lemma C2_missing_cmd_is_500_witness :
  (∅ : gmap string pyval) !! "cmd" = None
  /\ py_get (PDict ∅) "cmd" Demo.boot = (Return PNone, Demo.boot)
  /\ run_command Demo.sh (json_request (PDict ∅)) Demo.boot
     = (Raise TypeError, Demo.boot)
  /\ full_dispatch_request Demo.sh (json_request (PDict ∅)) Demo.boot
     = (Some {| status := 500; body := ErrorPage |}, Demo.boot).
Proof.
  split; [reflexivity |].
  apply (C2_missing_cmd_is_500 Demo.Host Demo.sh ∅ Demo.boot); reflexivity.
Defined.

(** C2 as the specification words it names two ways the call can go: the
    access returns a value and that value is passed to the shell, or the
    access raises and the request ends in a 500.  On the empty JSON object
    neither happens: the access returns, and nothing is passed to the
    shell. *)
Lemma C2_neither_shell_nor_raising_access :
  let r := json_request (PDict ∅) in
  ~ ((exists (v : pyval) (w1 : World Demo.Host),
        py_get (PDict ∅) "cmd" Demo.boot = (Return v, w1)
        /\ popen_calls (snd (full_dispatch_request Demo.sh r Demo.boot))
           <> popen_calls Demo.boot)
     \/ (exists (e : exn) (w1 : World Demo.Host),
           py_get (PDict ∅) "cmd" Demo.boot = (Raise e, w1)
           /\ fst (full_dispatch_request Demo.sh r Demo.boot)
              = Some {| status := 500; body := ErrorPage |})).
Proof.
  intros r [(v & w1 & _ & Hcalls) | (e & w1 & Hget & _)].
  - apply Hcalls. reflexivity.
  - discriminate Hget.
Qed.



(** C4 at work. *)
Lemma C4_echo_hello_witness :
  let p := {| stdout := "hello" +:+ LF; stderr := ""; returncode := 0 |} in
  Demo.sh "echo hello" (host Demo.boot) = (Exited p, host Demo.boot)
  /\ stdout p = "hello" +:+ LF
  /\ fst (full_dispatch_request Demo.sh
            (json_request (PDict {[ "cmd" := PStr "echo hello" ]})) Demo.boot)
     = Some {| status := 200;
               body := JsonBody (PDict {[ "output" := PStr ("hello" +:+ LF) ]}) |}.
Proof.
  intros p.
  split; [reflexivity |].
  split; [reflexivity |].
  apply (C4_echo_hello Demo.Host Demo.sh Demo.boot p (host Demo.boot)); reflexivity.
Defined.


(** C6 at work: a first call that leaves the directory alone does not show
    in the answer to the second. *)
Lemma C6_calls_meet_only_in_host_witness :
  let r1 := Demo.post "echo hello" in
  let r2 := Demo.post "ls" in
  host (snd (full_dispatch_request Demo.sh r1 Demo.boot)) = host Demo.boot
  /\ snd (fst (two_calls Demo.sh r1 r2 Demo.boot))
     = fst (full_dispatch_request Demo.sh r2 Demo.boot).
Proof.
  intros r1 r2.
  split; [reflexivity |].
  apply (proj2 (C6_calls_meet_only_in_host Demo.Host Demo.sh r1 r2 Demo.boot)).
  reflexivity.
Defined.

(** C6 as the specification words it fails on two calls that meet in the
    file system: the same second call, [ls], is answered with
    [app.py\nflag\n] after [touch flag] and with [app.py\n] after
    [echo hello] or when it comes first. *)
Lemma C6_second_answer_depends_on_first_call :
  let r2 := Demo.post "ls" in
  snd (fst (two_calls Demo.sh (Demo.post "touch flag") r2 Demo.boot))
  = Some {| status := 200;
            body := JsonBody
                      (PDict {[ "output" :=
                                  PStr ("app.py" +:+ LF +:+ "flag" +:+ LF) ]}) |}
  /\ snd (fst (two_calls Demo.sh (Demo.post "echo hello") r2 Demo.boot))
     = Some {| status := 200;
               body := JsonBody
                         (PDict {[ "output" := PStr ("app.py" +:+ LF) ]}) |}
  /\ snd (fst (two_calls Demo.sh (Demo.post "touch flag") r2 Demo.boot))
     <> snd (fst (two_calls Demo.sh (Demo.post "echo hello") r2 Demo.boot))
  /\ snd (fst (two_calls Demo.sh (Demo.post "touch flag") r2 Demo.boot))
     <> fst (full_dispatch_request Demo.sh r2 Demo.boot).
Proof.
  intros r2.
  assert (Hne : Some (ok ("app.py" +:+ LF +:+ "flag" +:+ LF))
                <> Some (ok ("app.py" +:+ LF))).
  { intros H. apply (inj Some), ok_inj in H. discriminate H. }
  split; [reflexivity |].
  split; [reflexivity |].
  split; exact Hne.
Qed.

(** C7 at work: a POST to [/] reaches the view and gets the JSON object. *)
Lemma C7_one_route_one_shape_witness :
  let resp := {| status := 200;
                 body := JsonBody (PDict {[ "output" := PStr ("hello" +:+ LF) ]}) |} in
  let w' := {| host := host Demo.boot; popen_calls := ["echo hello"];
               server_stderr := [""] |} in
  full_dispatch_request Demo.sh (Demo.post "echo hello") Demo.boot
  = (Some resp, w')
  /\ status resp = 200
  /\ exists (s : string) (p : CompletedProcess),
       Demo.sh s (host Demo.boot) = (Exited p, host w')
       /\ utf8_ok (stdout p) = true
       /\ popen_calls w' = popen_calls Demo.boot ++ [s]
       /\ body resp
          = JsonBody
              (PDict {[ "output" := PStr (universal_newlines (stdout p)) ]}).
Proof.
  intros resp w'.
  split; [reflexivity |].
  split; [reflexivity |].
  apply (proj2 (proj2 (proj2 (C7_one_route_one_shape Demo.Host Demo.sh)))
           (Demo.post "echo hello") Demo.boot w' resp);
    reflexivity.
Defined.

(** C7 as the specification words it fails on the rules Flask adds: a GET
    under [/static/] is taken to the view of the static files, and an
    OPTIONS to [/] is answered by Flask, so POST at [/] is not all the
    server takes. *)
Lemma C7_static_files_and_options_are_routed :
  match_request "GET" "/static/app.js" = ToView "static"
  /\ match_request "OPTIONS" "/" = AutomaticOptions
  /\ ~ (forall method path : string,
          match_request method path <> ByWerkzeug ->
          upper method = "POST" /\ path = "/").
Proof.
  split; [reflexivity |].
  split; [reflexivity |].
  intros H.
  destruct (H "GET" "/static/app.js") as [Hm _]; [discriminate |].
  discriminate Hm.
Qed.

(** C8 as the specification words it fails under one environment
    variable: with [FLASK_RUN_FROM_CLI=true] the script starts no server,
    on no address. *)
Lemma C8_flask_run_from_cli_starts_no_server :
  let environ : gmap string string := {[ "FLASK_RUN_FROM_CLI" := "true" ]} in
  main "__main__" environ None None = None
  /\ main "__main__" environ None None <> Some ("0.0.0.0", 3000).
Proof.
  intros environ.
  split; [reflexivity | discriminate].
Qed.

(** C9 at work: a number under ["cmd"]. *)
Lemma C9_non_string_cmd_is_500_witness :
  let d : gmap string pyval := {[ "cmd" := PInt 5 ]} in
  d !! "cmd" = Some (PInt 5)
  /\ is_str (PInt 5) = false
  /\ run_command Demo.sh (json_request (PDict d)) Demo.boot
     = (Raise TypeError, Demo.boot)
  /\ full_dispatch_request Demo.sh (json_request (PDict d)) Demo.boot
     = (Some {| status := 500; body := ErrorPage |}, Demo.boot).
Proof.
  intros d.
  split; [reflexivity |].
  split; [reflexivity |].
  apply (C9_non_string_cmd_is_500 Demo.Host Demo.sh d (PInt 5) Demo.boot);
    reflexivity.
Defined.

(** C10 at work. *)
Lemma C10_empty_cmd_is_200_witness :
  let p := {| stdout := ""; stderr := ""; returncode := 0 |} in
  ({[ "cmd" := PStr "" ]} : gmap string pyval) !! "cmd" = Some (PStr "")
  /\ Demo.sh "" (host Demo.boot) = (Exited p, host Demo.boot)
  /\ stdout p = ""
  /\ fst (full_dispatch_request Demo.sh (Demo.post "") Demo.boot)
     = Some {| status := 200;
               body := JsonBody (PDict {[ "output" := PStr "" ]}) |}
  /\ popen_calls (snd (full_dispatch_request Demo.sh (Demo.post "") Demo.boot))
     = [""].
Proof.
  intros p.
  split; [reflexivity |].
  split; [reflexivity |].
  split; [reflexivity |].
  apply (C10_empty_cmd_is_200 Demo.Host Demo.sh
           {[ "cmd" := PStr "" ]} Demo.boot p (host Demo.boot)); reflexivity.
Defined.

(** * Further properties of the view *)

Section Edges.

Variable Host : Type.
Variable sh : string -> Host -> ShellRun * Host.

(** X1: A body that parses to anything but a dict (a list, a string, a number,
    [null]) has no [get]: the view raises [AttributeError] at its second
    line, the call is answered with a 500 and leaves the world as it was,
    so no command is run. *)
Theorem non_dict_body_is_500 (v : pyval) (w : World Host) :
  (forall d : gmap string pyval, v <> PDict d) ->
  run_command sh (json_request v) w = (Raise AttributeError, w)
  /\ full_dispatch_request sh (json_request v) w
     = (Some {| status := 500; body := ErrorPage |}, w).
Proof.
  intros Hv. run_view.
  destruct v as [ | | | | | | d]; simpl; auto.
  destruct (Hv d eq_refl).
Qed.

(** X2: When [request.get_json()] aborts, the view stops at its first line:
    the call is answered with the status of that HTTP error, 400 or 415,
    and leaves the world as it was, so no command is run. *)
Theorem aborted_get_json_runs_nothing (r : Request) (e : HTTPError)
    (w : World Host) :
  get_json_result r = inl e ->
  run_command sh r w = (Raise (HTTPException e), w)
  /\ full_dispatch_request sh r w
     = (Some {| status := code e; body := ErrorPage |}, w)
  /\ (code e = 400 \/ code e = 415).
Proof.
  intros Hr. run_view. rewrite Hr; simpl.
  repeat split. destruct e; auto.
Qed.

(** X3: The view looks at nothing of the body but its ["cmd"] entry, and an
    entry that is [null] is the same to it as no entry: two bodies whose
    [data.get("cmd")] agree get the same answer and leave the same
    world. *)
Theorem other_keys_are_ignored (d d' : gmap string pyval) (w : World Host) :
  default PNone (d !! "cmd") = default PNone (d' !! "cmd") ->
  full_dispatch_request sh (json_request (PDict d)) w
  = full_dispatch_request sh (json_request (PDict d')) w.
Proof.
  intros Hd. run_view. rewrite Hd. reflexivity.
Qed.

(** X4: When the spawn of the shell itself raises a Python error on a
    command line (no process could be forked), nobody catches it: the call
    is answered with a 500; the command line is on the log of the spawns,
    no child has written anything, and the host is as the failed spawn
    left it. *)
Theorem spawn_failure_is_500 (d : gmap string pyval) (s : string)
    (w : World Host) (e : exn) (h : Host) :
  d !! "cmd" = Some (PStr s) ->
  has_nul s = false ->
  sh s (host w) = (SpawnFailed e, h) ->
  (forall x : HTTPError, e <> HTTPException x) ->
  full_dispatch_request sh (json_request (PDict d)) w
  = (Some {| status := 500; body := ErrorPage |},
     {| host := h;
        popen_calls := popen_calls w ++ [s];
        server_stderr := server_stderr w |}).
Proof.
  intros Hd Hnul Hsh He. run_view.
  rewrite Hd; simpl. rewrite Hnul, Hsh; simpl.
  destruct e as [ | | | | | x]; try reflexivity.
  destruct (He x eq_refl).
Qed.

(** X5: The view sets no limit on the time of the child: when the child of
    a command line never closes its standard output, [read] never
    returns and the call is never answered. *)
Theorem hanging_child_gets_no_answer (d : gmap string pyval) (s : string)
    (w : World Host) (h : Host) :
  d !! "cmd" = Some (PStr s) ->
  has_nul s = false ->
  sh s (host w) = (Hangs, h) ->
  fst (full_dispatch_request sh (json_request (PDict d)) w) = None
  /\ popen_calls (snd (full_dispatch_request sh (json_request (PDict d)) w))
     = popen_calls w ++ [s].
Proof.
  intros Hd Hnul Hsh. run_view.
  rewrite Hd; simpl. rewrite Hnul, Hsh; simpl.
  split; reflexivity.
Qed.

(** X6: An answer that is not a 200 has status 400, 415 or 500 and carries an
    error page: no text of a child, and no JSON, is ever sent with an
    error status. *)
Theorem error_answers_carry_no_output (r : Request) (w w' : World Host)
    (resp : Response) :
  full_dispatch_request sh r w = (Some resp, w') ->
  status resp <> 200 ->
  body resp = ErrorPage
  /\ (status resp = 400 \/ status resp = 415 \/ status resp = 500).
Proof.
  run_view.
  destruct (get_json_result r) as [[ | ] | v]; simpl;
    try (intros [= <- <-] _; simpl; auto).
  destruct v as [ | | | | | | d]; simpl;
    try (intros [= <- <-] _; simpl; auto).
  destruct (default PNone (d !! "cmd")) as [ | | | | s | | ]; simpl;
    try (intros [= <- <-] _; simpl; auto).
  destruct (has_nul s); simpl;
    try (intros [= <- <-] _; simpl; auto).
  destruct (sh s (host w)) as [[p | e | ] h]; simpl.
  - unfold read. destruct (utf8_ok (stdout p)); simpl.
    + intros [= <- <-] Hs. simpl in Hs. destruct (Hs eq_refl).
    + intros [= <- <-] _; simpl; auto.
  - destruct e as [ | | | | | [ | ]]; intros [= <- <-] _; simpl; auto.
  - discriminate.
Qed.

(** X7: The exit status of the child is never read: with the status of every
    finished child replaced by any [rc], each call gets the same answer and
    leaves the same world. *)
Theorem returncode_is_never_read (rc : Z) (r : Request) (w : World Host) :
  full_dispatch_request (map_run sh (with_returncode rc)) r w
  = full_dispatch_request sh r w.
Proof.
  run_view.
  destruct (get_json_result r) as [e | v]; simpl; [reflexivity |].
  destruct v as [ | | | | | | d]; simpl; try reflexivity.
  destruct (default PNone (d !! "cmd")) as [ | | | | s | | ]; simpl;
    try reflexivity.
  destruct (has_nul s); [reflexivity |].
  unfold map_run.
  destruct (sh s (host w)) as [[p | e | ] h]; reflexivity.
Qed.

(** X8: What the child writes on its standard error reaches the server's own
    standard error and nothing else: with the standard error of every
    finished child replaced by any [err], each call gets the same answer,
    leaves the same host and the same log of shell calls. *)
Theorem stderr_reaches_no_answer (err : string) (r : Request)
    (w : World Host) :
  let heard := full_dispatch_request sh r w in
  let muted := full_dispatch_request (map_run sh (with_stderr err)) r w in
  fst muted = fst heard
  /\ host (snd muted) = host (snd heard)
  /\ popen_calls (snd muted) = popen_calls (snd heard).
Proof.
  run_view.
  destruct (get_json_result r) as [e | v]; simpl; [auto |].
  destruct v as [ | | | | | | d]; simpl; auto.
  destruct (default PNone (d !! "cmd")) as [ | | | | s | | ]; simpl; auto.
  destruct (has_nul s); simpl; [auto |].
  unfold map_run.
  destruct (sh s (host w)) as [[p | e | ] h]; simpl; auto.
  unfold read; simpl. destruct (utf8_ok (stdout p)); simpl; auto.
Qed.

End Edges.

(** * Calls in a row *)

Section Runs.

Variable Host : Type.
Variable sh : string -> Host -> ShellRun * Host.

(** What one call adds to the log of shell calls, and the host it leaves. *)
Lemma dispatch_trace (r : Request) (w : World Host) :
  popen_calls (snd (full_dispatch_request sh r w))
  = popen_calls w ++ option_list (cmd_of r)
  /\ host (snd (full_dispatch_request sh r w))
     = from_option (fun s => snd (sh s (host w))) (host w) (cmd_of r).
Proof.
  unfold cmd_of. run_view.
  destruct (get_json_result r) as [e | v]; simpl.
  { rewrite app_nil_r. auto. }
  destruct v as [ | | | | | | d]; simpl; rewrite ?app_nil_r; auto.
  destruct (d !! "cmd") as [v | ]; simpl; rewrite ?app_nil_r; auto.
  destruct v as [ | | | | s | | ]; simpl; rewrite ?app_nil_r; auto.
  destruct (has_nul s); simpl; rewrite ?app_nil_r; auto.
  destruct (sh s (host w)) as [[p | e | ] h]; simpl; auto.
  unfold read. destruct (utf8_ok (stdout p)); simpl; auto.
Qed.

(** X9: Over any run of calls there is one answer slot for each request, the
    command lines handed to the shell are the strings the requests carry
    under ["cmd"], each once and in the order of the requests, and the host
    at the end is the host after those command lines: the server runs no
    command of its own, and a request that carries none leaves no trace. *)
Theorem calls_run_the_requested_commands (rs : list Request)
    (w : World Host) :
  length (fst (calls sh rs w)) = length rs
  /\ popen_calls (snd (calls sh rs w)) = popen_calls w ++ omap cmd_of rs
  /\ host (snd (calls sh rs w))
     = foldl (fun h s => snd (sh s h)) (host w) (omap cmd_of rs).
Proof.
  revert w.
  induction rs as [ | r rs IH]; intros w; simpl.
  - rewrite app_nil_r. auto.
  - destruct (dispatch_trace r w) as [Hlog Hhost].
    destruct (full_dispatch_request sh r w) as [a w1].
    destruct (IH w1) as (Hlen & Hlogs & Hhosts).
    destruct (calls sh rs w1) as [answers w2].
    simpl in *.
    rewrite Hlen, Hlogs, Hhosts, Hlog, Hhost.
    destruct (cmd_of r) as [s | ]; simpl.
    + rewrite <- app_assoc. auto.
    + rewrite app_nil_r. auto.
Qed.

(** X10: When none of the command lines of a run of calls changes the host the
    run starts on, the calls do not show in each other: every call gets the
    answer it would get as the first one, and the host at the end is the
    host at the start. *)
Theorem read_only_calls_are_independent (rs : list Request)
    (w : World Host) :
  Forall (fun r => forall s : string,
            cmd_of r = Some s -> snd (sh s (host w)) = host w) rs ->
  fst (calls sh rs w) = map (fun r => fst (full_dispatch_request sh r w)) rs
  /\ host (snd (calls sh rs w)) = host w.
Proof.
  intros Hro.
  cut (forall w1 : World Host,
         host w1 = host w ->
         fst (calls sh rs w1)
         = map (fun r => fst (full_dispatch_request sh r w)) rs
         /\ host (snd (calls sh rs w1)) = host w).
  { intros H. apply H. reflexivity. }
  induction Hro as [ | r rs Hr _ IH]; intros w1 Hw1; simpl.
  - auto.
  - destruct (dispatch_reads_host_only Host sh r w1 w Hw1) as [Hans _].
    destruct (dispatch_trace r w1) as [_ Hhost].
    destruct (full_dispatch_request sh r w1) as [a w2].
    simpl in Hans, Hhost.
    assert (Hw2 : host w2 = host w).
    { rewrite Hhost, Hw1.
      destruct (cmd_of r) as [s | ] eqn:Hc; simpl; auto. }
    destruct (IH w2 Hw2) as [Hrest Hend].
    destruct (calls sh rs w2) as [answers w3].
    simpl in *. rewrite Hans, Hrest. auto.
Qed.

End Runs.

(** * The further properties on the demo host *)

(** A body that is the JSON list [[]]. *)
Lemma non_dict_body_is_500_witness :
  (forall d : gmap string pyval, PList [] <> PDict d)
  /\ run_command Demo.sh (json_request (PList [])) Demo.boot
     = (Raise AttributeError, Demo.boot)
  /\ full_dispatch_request Demo.sh (json_request (PList [])) Demo.boot
     = (Some {| status := 500; body := ErrorPage |}, Demo.boot).
Proof.
  split; [discriminate |].
  apply (non_dict_body_is_500 Demo.Host Demo.sh (PList []) Demo.boot).
  discriminate.
Defined.

(** A body that is no JSON at all. *)
Lemma aborted_get_json_runs_nothing_witness :
  let r := {| get_json_result := inl BadRequest |} in
  get_json_result r = inl BadRequest
  /\ run_command Demo.sh r Demo.boot
     = (Raise (HTTPException BadRequest), Demo.boot)
  /\ full_dispatch_request Demo.sh r Demo.boot
     = (Some {| status := 400; body := ErrorPage |}, Demo.boot)
  /\ (code BadRequest = 400 \/ code BadRequest = 415).
Proof.
  intros r.
  split; [reflexivity |].
  apply (aborted_get_json_runs_nothing Demo.Host Demo.sh r BadRequest
           Demo.boot).
  reflexivity.
Defined.

(** A second key beside ["cmd"]. *)
Lemma other_keys_are_ignored_witness :
  let d : gmap string pyval := {[ "cmd" := PStr "echo hello" ]} in
  let d' : gmap string pyval := <[ "timeout" := PInt 5 ]> d in
  default PNone (d !! "cmd") = default PNone (d' !! "cmd")
  /\ full_dispatch_request Demo.sh (json_request (PDict d)) Demo.boot
     = full_dispatch_request Demo.sh (json_request (PDict d')) Demo.boot.
Proof.
  intros d d'.
  split; [reflexivity |].
  apply (other_keys_are_ignored Demo.Host Demo.sh d d' Demo.boot).
  reflexivity.
Defined.

(** A host on which no process can be forked. *)
Lemma spawn_failure_is_500_witness :
  let d : gmap string pyval := {[ "cmd" := PStr "ls" ]} in
  d !! "cmd" = Some (PStr "ls")
  /\ has_nul "ls" = false
  /\ @no_fork Demo.Host "ls" (host Demo.boot)
     = (SpawnFailed OSError, host Demo.boot)
  /\ (forall x : HTTPError, OSError <> HTTPException x)
  /\ full_dispatch_request no_fork (json_request (PDict d)) Demo.boot
     = (Some {| status := 500; body := ErrorPage |},
        {| host := host Demo.boot;
           popen_calls := ["ls"];
           server_stderr := [] |}).
Proof.
  intros d.
  split; [reflexivity |].
  split; [reflexivity |].
  split; [reflexivity |].
  split; [discriminate |].
  apply (spawn_failure_is_500 Demo.Host no_fork d "ls" Demo.boot
           OSError (host Demo.boot));
    [reflexivity | reflexivity | reflexivity | discriminate].
Defined.

(** The 500 for a body without ["cmd"] carries the error page. *)
Lemma error_answers_carry_no_output_witness :
  let resp := {| status := 500; body := ErrorPage |} in
  full_dispatch_request Demo.sh (json_request (PDict ∅)) Demo.boot
  = (Some resp, Demo.boot)
  /\ status resp <> 200
  /\ body resp = ErrorPage
  /\ (status resp = 400 \/ status resp = 415 \/ status resp = 500).
Proof.
  intros resp.
  split; [reflexivity |].
  split; [discriminate |].
  apply (error_answers_carry_no_output Demo.Host Demo.sh
           (json_request (PDict ∅)) Demo.boot Demo.boot resp);
    [reflexivity | discriminate].
Defined.

(** A child that sleeps for ever gets no answer. *)
Lemma hanging_child_gets_no_answer_witness :
  let s := "sleep infinity" in
  ({[ "cmd" := PStr s ]} : gmap string pyval) !! "cmd" = Some (PStr s)
  /\ has_nul s = false
  /\ Demo.sh s (host Demo.boot) = (Hangs, host Demo.boot)
  /\ fst (full_dispatch_request Demo.sh (Demo.post s) Demo.boot) = None
  /\ popen_calls (snd (full_dispatch_request Demo.sh (Demo.post s) Demo.boot))
     = [s].
Proof.
  intros s.
  split; [reflexivity |].
  split; [reflexivity |].
  split; [reflexivity |].
  apply (hanging_child_gets_no_answer Demo.Host Demo.sh
           {[ "cmd" := PStr s ]} s Demo.boot (host Demo.boot));
    reflexivity.
Defined.

(** Four calls that only look: each is answered as if it came first. *)
Lemma read_only_calls_are_independent_witness :
  let rs := [Demo.post "echo hello"; Demo.post "ls";
             json_request (PDict ∅); Demo.post "exit 1"] in
  Forall (fun r => forall s : string,
            cmd_of r = Some s ->
            snd (Demo.sh s (host Demo.boot)) = host Demo.boot) rs
  /\ fst (calls Demo.sh rs Demo.boot)
     = map (fun r => fst (full_dispatch_request Demo.sh r Demo.boot)) rs
  /\ host (snd (calls Demo.sh rs Demo.boot)) = host Demo.boot.
Proof.
  intros rs.
  assert (H : Forall (fun r => forall s : string,
                        cmd_of r = Some s ->
                        snd (Demo.sh s (host Demo.boot)) = host Demo.boot)
                rs).
  { repeat constructor; intros s Hs; vm_compute in Hs;
      try discriminate Hs; injection Hs as <-; reflexivity. }
  split; [exact H |].
  exact (read_only_calls_are_independent Demo.Host Demo.sh rs Demo.boot H).
Defined.

(** * Text mode on the demo host *)

(** A child that writes the one byte 255, as [printf '\377'] does, has
    written no UTF-8: the answer is a 500. *)
Example undecodable_output_is_500 :
  fst (full_dispatch_request
         (writes (String (Ascii.ascii_of_nat 255) EmptyString))
         (Demo.post "printf '\377'") Demo.boot)
  = Some {| status := 500; body := ErrorPage |}.
Proof. reflexivity. Qed.

(** A child that ends its lines the DOS way is read with line feeds. *)
Example crlf_is_read_as_lf :
  fst (full_dispatch_request
         (writes ("a" +:+ CR +:+ LF +:+ "b" +:+ CR))
         (Demo.post "printf 'a\r\nb\r'") Demo.boot)
  = Some (ok ("a" +:+ LF +:+ "b" +:+ LF)).
Proof. reflexivity. Qed.
